(** * gen_secret.py: the tracker-secret generator

    A shallow embedding of [wowid3-server/gen_secret.py] and the properties
    of its observable behaviour: what reaches standard output and standard
    error, what happens to the file system, and the exit status.

    The script is thirteen lines of straight-line Python with one
    conditional.  Its effects are embedded in a reader/state/exception monad
    over an explicit world (file system plus a chronological effect log);
    the three library calls it makes ([secrets.token_hex], [print],
    [open]/[write]) are embedded next to it with the semantics the CPython
    standard library gives them. *)

From Stdlib Require Import NArith ZArith Lia.
From Stdlib.Strings Require Import Ascii String Byte.
From stdpp Require Import base option list gmap strings.

(** ** Text *)

(** The newline character, [chr(10)]. *)
Definition nl : string := String "010"%char EmptyString.

(** ** [bytes.hex()] *)

Module Hex.

(** CPython's digit table ([Py_hexdigits]). *)
Definition hexdigits : string := "0123456789abcdef".

(** [hexdigits[n]] for a nibble [n]. *)
Definition digit (n : N) : ascii :=
  match String.get (N.to_nat n) hexdigits with
  | Some c => c
  | None => "0"%char
  end.

(** High and low nibble of a byte: [b >> 4] and [b & 0x0f]. *)
Definition hi (b : byte) : N := N.shiftr (Byte.to_N b) 4.
Definition lo (b : byte) : N := N.land (Byte.to_N b) 15.

(** [bytes.hex()]: two digits per byte, high nibble first, nothing in
    between. *)
Fixpoint hex (bs : list byte) : string :=
  match bs with
  | [] => EmptyString
  | b :: rest => String (digit (hi b)) (String (digit (lo b)) (hex rest))
  end.

(** The value of one hexadecimal digit, as [bytes.fromhex] reads it back
    (lowercase digits only: that is all [hex] ever emits). *)
Definition digit_value (c : ascii) : option N :=
  let n := N_of_ascii c in
  if ((48 <=? n) && (n <=? 57))%N then Some (n - 48)%N
  else if ((97 <=? n) && (n <=? 102))%N then Some (n - 87)%N
  else None.

Definition byte_of_digits (c1 c2 : ascii) : option byte :=
  match digit_value c1, digit_value c2 with
  | Some h, Some l => Byte.of_N (16 * h + l)%N
  | _, _ => None
  end.

(** The character class [[0-9a-f]]. *)
Definition is_lower_hex (c : ascii) : bool :=
  let n := N_of_ascii c in
  ((48 <=? n)%N && (n <=? 57)%N) || ((97 <=? n)%N && (n <=? 102)%N).

(** [s] matches [^[0-9a-f]{k}$]. *)
Definition matches_hex (k : nat) (s : string) : bool :=
  Nat.eqb (String.length s) k
  && forallb is_lower_hex (list_ascii_of_string s).

End Hex.

(** ** The world the script runs in *)

(** An [OSError] as the operating system reports it. *)
Record OSError := { errno : Z; strerror : string }.

(** The exceptions the script's operations can raise. *)
Inductive exn :=
| IndexError
| OSErr (err : OSError).

(** What the process does to the outside, in program order. *)
Inductive event :=
| EvStdout (text : string)                          (* sys.stdout.write(text) *)
| EvStderr (text : string)                          (* sys.stderr.write(text) *)
| EvOpen (path : string) (failure : option OSError) (* open(path, 'w') *)
| EvWrite (path data : string) (failure : option OSError)
| EvClose (path : string)
| EvTraceback (x : exn).     (* the interpreter reports an uncaught exception *)

(** What one invocation is given: the argument vector, the bytes the
    operating system's random source ([os.urandom]) hands out, the files of
    the working directory, and how the file system answers an attempt to
    open a path for writing or to write to it.  A write that fails may
    still have put the first [k] characters on disk.

    Scope: [os.urandom] blocks until the system's source is seeded and then
    returns as many bytes as were asked for, so the source is a total
    stream here; a platform that has no such source, and standard streams
    that cannot be written, are not part of this development. *)
Record Env := {
  argv : list string;
  urandom : nat -> byte;
  files : gmap string string;
  open_fault : string -> option OSError;
  write_fault : string -> option (nat * OSError)
}.

Record World := { fs : gmap string string; log : list event }.

Definition boot (e : Env) : World := {| fs := files e; log := [] |}.

(** ** The effect monad: reader of [Env], state [World], exceptions [exn] *)

Inductive result (A : Type) :=
| Ok (a : A)
| Raise (x : exn).
Arguments Ok {A} a.
Arguments Raise {A} x.

Definition M (A : Type) : Type := Env -> World -> result A * World.

Definition ret {A} (a : A) : M A := fun _ w => (Ok a, w).

Definition raise {A} (x : exn) : M A := fun _ w => (Raise x, w).

Definition bind {A B} (m : M A) (k : A -> M B) : M B :=
  fun e w =>
    match m e w with
    | (Ok a, w') => k a e w'
    | (Raise x, w') => (Raise x, w')
    end.

Notation "x <- m ;; k" := (bind m (fun x => k))
  (at level 100, m at next level, right associativity).
Notation "m ;;; k" := (bind m (fun _ => k))
  (at level 100, right associativity).

Definition ask : M Env := fun e w => (Ok e, w).

Definition emit (ev : event) : M unit :=
  fun _ w => (Ok tt, {| fs := fs w; log := log w ++ [ev] |}).

(** [try: m finally: c]: [c] runs whether or not [m] raised, and the
    outcome of [m] stands. *)
Definition finally {A} (m : M A) (c : M unit) : M A :=
  fun e w =>
    match m e w with
    | (r, w') => (r, snd (c e w'))
    end.

(** ** The library calls the script makes *)

(** [os.urandom(n)]: the next [n] bytes of the system's random source. *)
Definition os_urandom (n : nat) : M (list byte) :=
  e <- ask ;; ret (map (urandom e) (seq 0 n)).

(** [secrets.token_bytes(nbytes)] and [secrets.token_hex(nbytes)]. *)
Definition token_bytes (nbytes : nat) : M (list byte) := os_urandom nbytes.

Definition token_hex (nbytes : nat) : M string :=
  bs <- token_bytes nbytes ;; ret (Hex.hex bs).

Inductive stream := Stdout | Stderr.

(** [print(s, file=to)]: the text, then the line end. *)
Definition print (to : stream) (s : string) : M unit :=
  match to with
  | Stdout => emit (EvStdout (s +:+ nl))
  | Stderr => emit (EvStderr (s +:+ nl))
  end.

(** [sys.argv] and [l[i]] on a list; the latter raises [IndexError] past
    the end. *)
Definition sys_argv : M (list string) := e <- ask ;; ret (argv e).

Definition getitem (l : list string) (i : nat) : M string :=
  match l !! i with
  | Some x => ret x
  | None => raise IndexError
  end.

(** [a and b] on conditions: [b] is evaluated only when [a] is true. *)
Definition and_then (a b : M bool) : M bool :=
  x <- a ;; if x then b else ret false.

(** A file object open for writing. *)
Record file := { name : string }.

(** [open(path, 'w')]: creates the file or truncates it to nothing, unless
    the file system refuses. *)
Definition open_w (path : string) : M file :=
  fun e w =>
    match open_fault e path with
    | Some err =>
        (Raise (OSErr err),
         {| fs := fs w; log := log w ++ [EvOpen path (Some err)] |})
    | None =>
        (Ok {| name := path |},
         {| fs := <[path := EmptyString]> (fs w);
            log := log w ++ [EvOpen path None] |})
    end.

(** [f.write(data)]: appends at the file position and returns the number
    of characters.  (CPython buffers the text and hands it to the system
    when the file is closed at the latest; a failure then surfaces at the
    end of the [with] block instead of inside it, which no caller of this
    script can tell apart.) *)
Definition file_write (f : file) (data : string) : M nat :=
  fun e w =>
    let old := default EmptyString (fs w !! name f) in
    match write_fault e (name f) with
    | Some (k, err) =>
        (Raise (OSErr err),
         {| fs := <[name f := old +:+ String.substring 0 k data]> (fs w);
            log := log w ++ [EvWrite (name f) data (Some err)] |})
    | None =>
        (Ok (String.length data),
         {| fs := <[name f := old +:+ data]> (fs w);
            log := log w ++ [EvWrite (name f) data None] |})
    end.

Definition file_close (f : file) : M unit := emit (EvClose (name f)).

(** [with open(path, 'w') as f: body]. *)
Definition with_open_w {A} (path : string) (body : file -> M A) : M A :=
  f <- open_w path ;; finally (body f) (file_close f).

(** ** gen_secret.py *)

(** Line 10's condition: [len(sys.argv) > 1 and sys.argv[1] == '--save']. *)
Definition save_requested : M bool :=
  and_then
    (av <- sys_argv ;; ret (1 <? length av)%nat)
    (av <- sys_argv ;; a1 <- getitem av 1 ;; ret (String.eqb a1 "--save")).

Definition tracker_file : string := ".tracker_secret".

Definition saved_notice : string := nl +:+ "Secret saved to .tracker_secret".

(** The module body, lines 6 to 13. *)
Definition main : M unit :=
  secret <- token_hex 32 ;;
  print Stdout secret ;;;
  save <- save_requested ;;
  if save then
    with_open_w tracker_file (fun f => file_write f secret) ;;;
    print Stderr saved_notice
  else ret tt.

(** ** The process as seen from outside *)

Record Outcome := {
  final_fs : gmap string string;
  trace : list event;
  exit_code : Z
}.

(** The interpreter runs the module; an exception nobody caught is
    reported on standard error and the exit status is 1. *)
Definition run (e : Env) : Outcome :=
  match main e (boot e) with
  | (Ok _, w) => {| final_fs := fs w; trace := log w; exit_code := 0 |}
  | (Raise x, w) =>
      {| final_fs := fs w; trace := log w ++ [EvTraceback x]; exit_code := 1 |}
  end.

(** Everything written to standard output, concatenated. *)
Fixpoint stdout_of (tr : list event) : string :=
  match tr with
  | [] => EmptyString
  | EvStdout s :: rest => s +:+ stdout_of rest
  | _ :: rest => stdout_of rest
  end.

(** What standard error shows: text the script printed, and the
    interpreter's report of an uncaught exception. *)
Inductive stderr_item :=
| Text (s : string)
| Report (x : exn).

Fixpoint stderr_of (tr : list event) : list stderr_item :=
  match tr with
  | [] => []
  | EvStderr s :: rest => Text s :: stderr_of rest
  | EvTraceback x :: rest => Report x :: stderr_of rest
  | _ :: rest => stderr_of rest
  end.

Definition stdout (o : Outcome) : string := stdout_of (trace o).
Definition stderr (o : Outcome) : list stderr_item := stderr_of (trace o).

(** File-system operations among the events. *)
Definition is_file_event (ev : event) : bool :=
  match ev with
  | EvOpen _ _ | EvWrite _ _ _ | EvClose _ => true
  | _ => false
  end.

Definition is_open_event (ev : event) : bool :=
  match ev with
  | EvOpen _ _ => true
  | _ => false
  end.

Definition touches_fs (o : Outcome) : bool := existsb is_file_event (trace o).

(** The secret of an invocation: the hexadecimal text of the 32 bytes the
    random source delivered. *)
Definition entropy (e : Env) : list byte := map (urandom e) (seq 0 32).
Definition secret_of (e : Env) : string := Hex.hex (entropy e).

(** The same invocation with another argument vector. *)
Definition with_argv (e : Env) (av : list string) : Env :=
  {| argv := av; urandom := urandom e; files := files e;
     open_fault := open_fault e; write_fault := write_fault e |}.

(** The first command-line argument, [sys.argv[1]], if there is one. *)
Definition first_arg (e : Env) : option string := argv e !! 1%nat.

(** Lines 11 to 13, the body of the conditional, for a given secret. *)
Definition save_block (s : string) : M unit :=
  with_open_w tracker_file (fun f => file_write f s) ;;;
  print Stderr saved_notice.

(** Whether the file system lets [.tracker_secret] be opened and written. *)
Definition save_io_ok (e : Env) : bool :=
  match open_fault e tracker_file, write_fault e tracker_file with
  | None, None => true
  | _, _ => false
  end.

(** The error the [--save] path meets, if any: the one from [open], else
    the one from [write]. *)
Definition save_io_error (e : Env) : option OSError :=
  match open_fault e tracker_file with
  | Some err => Some err
  | None => snd <$> write_fault e tracker_file
  end.

(** The line the script prints on standard output. *)
Definition secret_line (e : Env) : string := secret_of e +:+ nl.

(** ** Sample invocations *)

Module Sample.

Definition random_bytes (i : nat) : byte :=
  default x00 (Byte.of_N (N.of_nat (i * 17 + 3) mod 256)).

Definition eacces : OSError :=
  {| errno := 13; strerror := "Permission denied" |}.
Definition enospc : OSError :=
  {| errno := 28; strerror := "No space left on device" |}.

Definition healthy (av : list string) (dir : gmap string string) : Env :=
  {| argv := av; urandom := random_bytes; files := dir;
     open_fault := fun _ => None; write_fault := fun _ => None |}.

(** [python gen_secret.py] *)
Definition plain : Env := healthy ["gen_secret.py"] ∅.

(** [python gen_secret.py --save], over an older secret file. *)
Definition save : Env :=
  healthy ["gen_secret.py"; "--save"] {[ tracker_file := "stale" ]}.

(** [python gen_secret.py foo --save] *)
Definition save_second : Env :=
  healthy ["gen_secret.py"; "foo"; "--save"] {[ tracker_file := "stale" ]}.

(** [--save] in a directory that cannot be written. *)
Definition read_only : Env :=
  {| argv := ["gen_secret.py"; "--save"]; urandom := random_bytes;
     files := ∅;
     open_fault := fun _ => Some eacces; write_fault := fun _ => None |}.

(** [--save] on a full disk: the file is created, three characters get
    through. *)
Definition disk_full : Env :=
  {| argv := ["gen_secret.py"; "--save"]; urandom := random_bytes;
     files := ∅;
     open_fault := fun _ => None;
     write_fault := fun _ => Some (3%nat, enospc) |}.

End Sample.

(** ** Reading a trace *)

(** The same invocation started in another directory state. *)
Definition in_directory (e : Env) (dir : gmap string string) : Env :=
  {| argv := argv e; urandom := urandom e; files := dir;
     open_fault := open_fault e; write_fault := write_fault e |}.

Definition no_file_open (opened : option string) : bool :=
  match opened with
  | None => true
  | Some _ => false
  end.

Definition is_open_on (opened : option string) (path : string) : bool :=
  match opened with
  | Some p => String.eqb p path
  | None => false
  end.

(** The discipline of the [with] block, checked along a trace: a file is
    opened only when none is open, written and closed only while it is the
    open one, nothing goes to standard error while a file is open, and
    nothing is left open at the end.  [opened] is the file open so far. *)
Fixpoint well_bracketed (opened : option string) (tr : list event) : bool :=
  match tr with
  | [] => no_file_open opened
  | EvStdout _ :: rest => well_bracketed opened rest
  | EvOpen path None :: rest =>
      no_file_open opened && well_bracketed (Some path) rest
  | EvOpen _ (Some _) :: rest =>
      no_file_open opened && well_bracketed None rest
  | EvWrite path _ _ :: rest =>
      is_open_on opened path && well_bracketed opened rest
  | EvClose path :: rest =>
      is_open_on opened path && well_bracketed None rest
  | EvStderr _ :: rest | EvTraceback _ :: rest =>
      no_file_open opened && well_bracketed opened rest
  end.

Definition is_write_event (ev : event) : bool :=
  match ev with
  | EvWrite _ _ _ => true
  | _ => false
  end.


Module Rerun.


(** A second invocation without arguments in that directory. *)
Definition print_only : Env :=
  {| argv := ["gen_secret.py"];
     urandom := fun i => Sample.random_bytes (i + 32);
     files := final_fs (run Sample.save);
     open_fault := fun _ => None; write_fault := fun _ => None |}.

(** [--save] on a full disk, over an older secret file. *)
Definition disk_full_over_stale : Env :=
  in_directory Sample.disk_full {[ tracker_file := "stale" ]}.

End Rerun.

(** ** Proof support *)

(** Splits a four-way description of a run (no save, saved, open refused,
    write failed) into its cases, naming what each one knows. *)
Ltac split_run_cases H :=
  destruct H
    as [(Harg & Hrun)
       |[(Harg & Hio & Hrun)
        |[(err & Harg & Hio & Herr & Hopen & Hrun)
         |(k & err & Harg & Hio & Herr & Hopen & Hwrite & Hrun)]]].

(** ** Lemmas on the encoding *)

Lemma byte_of_digits_hex (b : byte) :
  Hex.byte_of_digits (Hex.digit (Hex.hi b)) (Hex.digit (Hex.lo b)) = Some b.
Proof. destruct b; vm_compute; reflexivity. Qed.

Lemma digit_hi_lower_hex (b : byte) :
  Hex.is_lower_hex (Hex.digit (Hex.hi b)) = true.
Proof. destruct b; vm_compute; reflexivity. Qed.

Lemma digit_lo_lower_hex (b : byte) :
  Hex.is_lower_hex (Hex.digit (Hex.lo b)) = true.
Proof. destruct b; vm_compute; reflexivity. Qed.

Lemma hex_length (bs : list byte) :
  String.length (Hex.hex bs) = (2 * length bs)%nat.
Proof.
  induction bs as [|b bs IH]; simpl; [reflexivity|].
  rewrite IH. lia.
Qed.

Lemma hex_app (xs ys : list byte) :
  Hex.hex (xs ++ ys) = String.append (Hex.hex xs) (Hex.hex ys).
Proof.
  induction xs as [|x xs IH]; [reflexivity|].
  simpl. unfold String.append; fold String.append. simpl.
  unfold String.append; fold String.append. now rewrite IH.
Qed.

Lemma hex_inj (xs ys : list byte) : Hex.hex xs = Hex.hex ys -> xs = ys.
Proof.
  revert ys. induction xs as [|x xs IH]; intros [|y ys] H; simpl in H;
    try reflexivity; try discriminate.
  injection H as Hh Hl Hrest.
  assert (Some x = Some y) as Hxy.
  { rewrite <- (byte_of_digits_hex x), <- (byte_of_digits_hex y).
    now rewrite Hh, Hl. }
  injection Hxy as ->. f_equal. now apply IH.
Qed.

Lemma hex_all_lower_hex (bs : list byte) :
  forallb Hex.is_lower_hex (list_ascii_of_string (Hex.hex bs)) = true.
Proof.
  induction bs as [|b bs IH]; simpl; [reflexivity|].
  now rewrite digit_hi_lower_hex, digit_lo_lower_hex, IH.
Qed.

Lemma hex_matches (bs : list byte) :
  Hex.matches_hex (2 * length bs) (Hex.hex bs) = true.
Proof.
  unfold Hex.matches_hex. rewrite hex_length, hex_all_lower_hex.
  now rewrite Nat.eqb_refl.
Qed.

(** ** Evaluating the script *)

Lemma save_requested_eval (e : Env) (w : World) :
  save_requested e w = (Ok (bool_decide (first_arg e = Some "--save")), w).
Proof.
  cbv [save_requested and_then bind sys_argv ask ret getitem raise first_arg].
  destruct (argv e) as [|p [|a rest]] eqn:E; simpl; rewrite ?E; simpl;
    try reflexivity.
  destruct (String.eqb_spec a "--save") as [->|Hne].
  - reflexivity.
  - rewrite bool_decide_eq_false_2; [reflexivity|congruence].
Qed.

Lemma save_block_eval (e : Env) (w : World) (s : string) :
  save_block s e w =
  match open_fault e tracker_file with
  | Some err =>
      (Raise (OSErr err),
       {| fs := fs w; log := log w ++ [EvOpen tracker_file (Some err)] |})
  | None =>
      match write_fault e tracker_file with
      | Some (k, err) =>
          (Raise (OSErr err),
           {| fs := <[tracker_file := String.substring 0 k s]> (fs w);
              log := log w ++ [EvOpen tracker_file None;
                               EvWrite tracker_file s (Some err);
                               EvClose tracker_file] |})
      | None =>
          (Ok tt,
           {| fs := <[tracker_file := s]> (fs w);
              log := log w ++ [EvOpen tracker_file None;
                               EvWrite tracker_file s None;
                               EvClose tracker_file;
                               EvStderr (saved_notice +:+ nl)] |})
      end
  end.
Proof.
  cbv [save_block with_open_w bind open_w finally file_write file_close
       emit print name].
  destruct (open_fault e tracker_file) as [err|]; [reflexivity|].
  cbn [fs log snd].
  rewrite lookup_insert_eq. cbn [default].
  destruct (write_fault e tracker_file) as [[k err]|]; cbn [fs log snd];
    rewrite insert_insert_eq, <- !app_assoc; reflexivity.
Qed.

Lemma main_eval (e : Env) (w : World) :
  main e w =
  let w1 := {| fs := fs w; log := log w ++ [EvStdout (secret_line e)] |} in
  if bool_decide (first_arg e = Some "--save")
  then save_block (secret_of e) e w1
  else (Ok tt, w1).
Proof.
  unfold main.
  cbv [token_hex token_bytes os_urandom ask ret print emit].
  unfold bind at 1 2 3 4 5.
  rewrite save_requested_eval.
  destruct (bool_decide _); reflexivity.
Qed.

(** The four ways a run can go. *)

Lemma run_without_save (e : Env) :
  first_arg e <> Some "--save" ->
  run e = {| final_fs := files e;
             trace := [EvStdout (secret_line e)];
             exit_code := 0 |}.
Proof.
  intros H. unfold run. rewrite main_eval. cbn zeta.
  rewrite bool_decide_eq_false_2 by assumption. reflexivity.
Qed.

Lemma run_save_ok (e : Env) :
  first_arg e = Some "--save" ->
  open_fault e tracker_file = None ->
  write_fault e tracker_file = None ->
  run e = {| final_fs := <[tracker_file := secret_of e]> (files e);
             trace := [EvStdout (secret_line e);
                       EvOpen tracker_file None;
                       EvWrite tracker_file (secret_of e) None;
                       EvClose tracker_file;
                       EvStderr (saved_notice +:+ nl)];
             exit_code := 0 |}.
Proof.
  intros H Ho Hw. unfold run. rewrite main_eval. cbn zeta.
  rewrite bool_decide_eq_true_2 by assumption.
  rewrite save_block_eval, Ho, Hw. reflexivity.
Qed.

Lemma run_open_fails (e : Env) (err : OSError) :
  first_arg e = Some "--save" ->
  open_fault e tracker_file = Some err ->
  run e = {| final_fs := files e;
             trace := [EvStdout (secret_line e);
                       EvOpen tracker_file (Some err);
                       EvTraceback (OSErr err)];
             exit_code := 1 |}.
Proof.
  intros H Ho. unfold run. rewrite main_eval. cbn zeta.
  rewrite bool_decide_eq_true_2 by assumption.
  rewrite save_block_eval, Ho. reflexivity.
Qed.

Lemma run_write_fails (e : Env) (k : nat) (err : OSError) :
  first_arg e = Some "--save" ->
  open_fault e tracker_file = None ->
  write_fault e tracker_file = Some (k, err) ->
  run e = {| final_fs :=
               <[tracker_file := String.substring 0 k (secret_of e)]> (files e);
             trace := [EvStdout (secret_line e);
                       EvOpen tracker_file None;
                       EvWrite tracker_file (secret_of e) (Some err);
                       EvClose tracker_file;
                       EvTraceback (OSErr err)];
             exit_code := 1 |}.
Proof.
  intros H Ho Hw. unfold run. rewrite main_eval. cbn zeta.
  rewrite bool_decide_eq_true_2 by assumption.
  rewrite save_block_eval, Ho, Hw. reflexivity.
Qed.

Lemma entropy_length (e : Env) : length (entropy e) = 32%nat.
Proof. unfold entropy. now rewrite length_map, length_seq. Qed.

Lemma secret_matches (e : Env) : Hex.matches_hex 64 (secret_of e) = true.
Proof.
  unfold secret_of.
  change 64%nat with (2 * 32)%nat. rewrite <- (entropy_length e).
  apply hex_matches.
Qed.

Lemma save_io_ok_true (e : Env) :
  save_io_ok e = true ->
  open_fault e tracker_file = None /\ write_fault e tracker_file = None.
Proof.
  unfold save_io_ok.
  destruct (open_fault e tracker_file), (write_fault e tracker_file);
    intros; try discriminate; auto.
Qed.

Lemma append_empty_r (s : string) : s +:+ EmptyString = s.
Proof.
  induction s as [|c s IH]; [reflexivity|].
  unfold String.append; fold String.append. now rewrite IH.
Qed.

(** A run is one of the four above. *)
Lemma run_cases (e : Env) :
  (first_arg e <> Some "--save" /\
   run e = {| final_fs := files e;
              trace := [EvStdout (secret_line e)];
              exit_code := 0 |})
  \/ (first_arg e = Some "--save" /\ save_io_ok e = true /\
      run e = {| final_fs := <[tracker_file := secret_of e]> (files e);
                 trace := [EvStdout (secret_line e);
                           EvOpen tracker_file None;
                           EvWrite tracker_file (secret_of e) None;
                           EvClose tracker_file;
                           EvStderr (saved_notice +:+ nl)];
                 exit_code := 0 |})
  \/ (exists err,
      first_arg e = Some "--save" /\ save_io_ok e = false /\
      save_io_error e = Some err /\
      open_fault e tracker_file = Some err /\
      run e = {| final_fs := files e;
                 trace := [EvStdout (secret_line e);
                           EvOpen tracker_file (Some err);
                           EvTraceback (OSErr err)];
                 exit_code := 1 |})
  \/ (exists k err,
      first_arg e = Some "--save" /\ save_io_ok e = false /\
      save_io_error e = Some err /\
      open_fault e tracker_file = None /\
      write_fault e tracker_file = Some (k, err) /\
      run e = {| final_fs :=
                   <[tracker_file := String.substring 0 k (secret_of e)]>
                     (files e);
                 trace := [EvStdout (secret_line e);
                           EvOpen tracker_file None;
                           EvWrite tracker_file (secret_of e) (Some err);
                           EvClose tracker_file;
                           EvTraceback (OSErr err)];
                 exit_code := 1 |}).
Proof.
  destruct (decide (first_arg e = Some "--save")) as [H|H].
  2: { left. split; [assumption|]. now apply run_without_save. }
  right.
  destruct (open_fault e tracker_file) as [err|] eqn:Ho.
  { right. left. exists err. unfold save_io_ok, save_io_error. rewrite Ho.
    repeat split; try assumption. now apply run_open_fails. }
  destruct (write_fault e tracker_file) as [[k err]|] eqn:Hw.
  { right. right. exists k, err. unfold save_io_ok, save_io_error.
    rewrite Ho, Hw. repeat split; try assumption.
    now apply run_write_fails. }
  left. unfold save_io_ok. rewrite Ho, Hw.
  repeat split; try assumption. now apply run_save_ok.
Qed.

Lemma stdout_run (e : Env) : stdout (run e) = secret_line e.
Proof.
  split_run_cases (run_cases e); rewrite Hrun; unfold stdout;
    cbn [trace stdout_of]; apply append_empty_r.
Qed.

(** ** Standard output *)

(** C1. Whatever the argument vector (and whatever the file system does),
    standard output receives the secret, a 64-character string over
    [0-9a-f], followed by one newline, and nothing else; in particular the
    text holds exactly one newline character, the last one. *)
Theorem stdout_is_one_hex64_line (e : Env) :
  stdout (run e) = secret_of e +:+ nl
  /\ Hex.matches_hex 64 (secret_of e) = true
  /\ filter (fun c => c = "010"%char)
       (list_ascii_of_string (stdout (run e))) = ["010"%char].
Proof.
  rewrite stdout_run. unfold secret_line.
  split; [reflexivity|]. split; [apply secret_matches|].
  pose proof (secret_matches e) as Hm. unfold Hex.matches_hex in Hm.
  apply andb_prop in Hm as [_ Hall].
  induction (secret_of e) as [|c s IH].
  - reflexivity.
  - cbn [list_ascii_of_string forallb] in Hall.
    apply andb_prop in Hall as [Hc Hs].
    unfold String.append; fold String.append.
    cbn [list_ascii_of_string]. rewrite filter_cons.
    destruct (decide (c = "010"%char)) as [->|_].
    + discriminate Hc.
    + now apply IH.
Qed.

(** ** The [--save] path *)

(** C2. With [--save] as first argument and a file system that lets the
    file be opened and written, [.tracker_secret] ends up holding exactly
    the 64 hexadecimal characters printed on standard output, without the
    newline and with nothing of an earlier file left; no other file
    changes. *)
Theorem save_stores_printed_secret (e : Env) :
  first_arg e = Some "--save" ->
  save_io_ok e = true ->
  final_fs (run e) !! tracker_file = Some (secret_of e)
  /\ stdout (run e) = secret_of e +:+ nl
  /\ Hex.matches_hex 64 (secret_of e) = true
  /\ final_fs (run e) = <[tracker_file := secret_of e]> (files e).
Proof.
  intros Harg Hio. apply save_io_ok_true in Hio as [Ho Hw].
  rewrite stdout_run, (run_save_ok e Harg Ho Hw). cbn [final_fs].
  rewrite lookup_insert_eq. repeat split. apply secret_matches.
Qed.

Lemma save_stores_printed_secret_witness :
  files Sample.save !! tracker_file = Some "stale"
  /\ final_fs (run Sample.save) !! tracker_file = Some (secret_of Sample.save)
  /\ stdout (run Sample.save) = secret_of Sample.save +:+ nl
  /\ Hex.matches_hex 64 (secret_of Sample.save) = true
  /\ final_fs (run Sample.save)
     = <[tracker_file := secret_of Sample.save]> (files Sample.save).
Proof.
  split; [reflexivity|].
  apply (save_stores_printed_secret Sample.save); reflexivity.
Defined.

(** C6. With [--save] as first argument and a successful write, standard
    error receives a blank line and then the notice that the secret was
    saved to [.tracker_secret]; standard output still holds the secret line
    only, and the exit status is 0. *)
Theorem save_notice_goes_to_stderr (e : Env) :
  first_arg e = Some "--save" ->
  save_io_ok e = true ->
  stderr (run e) = [Text (nl +:+ "Secret saved to .tracker_secret" +:+ nl)]
  /\ stdout (run e) = secret_of e +:+ nl
  /\ exit_code (run e) = 0%Z.
Proof.
  intros Harg Hio. apply save_io_ok_true in Hio as [Ho Hw].
  rewrite stdout_run, (run_save_ok e Harg Ho Hw). repeat split.
Qed.

Lemma save_notice_goes_to_stderr_witness :
  stderr (run Sample.save)
  = [Text (nl +:+ "Secret saved to .tracker_secret" +:+ nl)]
  /\ stdout (run Sample.save) = secret_of Sample.save +:+ nl
  /\ exit_code (run Sample.save) = 0%Z.
Proof. apply (save_notice_goes_to_stderr Sample.save); reflexivity. Defined.

(** ** When the file system is touched *)

(** C3. A file operation is issued exactly when the first argument is the
    literal [--save]; for any other argument vector (none, a different
    first argument, [--save] further back) no file is opened, written or
    closed and the file system is as it was. *)
Theorem file_effect_iff_first_arg_is_save (e : Env) :
  (touches_fs (run e) = true <-> first_arg e = Some "--save")
  /\ (first_arg e <> Some "--save" ->
      final_fs (run e) = files e
      /\ filter (fun ev => is_file_event ev = true) (trace (run e)) = [])
  /\ (first_arg e = Some "--save" ->
      In (EvOpen tracker_file (open_fault e tracker_file)) (trace (run e))
      /\ (save_io_ok e = true ->
          final_fs (run e) = <[tracker_file := secret_of e]> (files e))).
Proof.
  split; [|split].
  - split_run_cases (run_cases e); rewrite Hrun; unfold touches_fs; cbn; split;
      intros; congruence.
  - intros Hne. rewrite (run_without_save e Hne). split; reflexivity.
  - intros Hsave. split.
    + split_run_cases (run_cases e); try congruence; rewrite Hrun;
        [apply save_io_ok_true in Hio as [-> _]|rewrite Hopen..];
        cbn [trace In]; auto.
    + intros Hok. apply save_io_ok_true in Hok as [Ho Hw].
      now rewrite (run_save_ok e Hsave Ho Hw).
Qed.

(** [--save] as second argument is not looked at. *)
Example later_save_is_ignored :
  touches_fs (run Sample.save_second) = false
  /\ final_fs (run Sample.save_second) = files Sample.save_second.
Proof. split; reflexivity. Qed.

(** C4. An invocation whose first argument is anything but [--save] has
    the outcome of the invocation without arguments in the same
    surroundings: the secret line on standard output, no file operation,
    nothing on standard error, exit status 0. *)
Theorem other_first_arg_behaves_as_none
    (e : Env) (prog a : string) (rest : list string) :
  argv e = prog :: a :: rest ->
  a <> "--save" ->
  run e = run (with_argv e [prog])
  /\ (forall av0, (length av0 <= 1)%nat -> run e = run (with_argv e av0))
  /\ stdout (run e) = secret_of e +:+ nl
  /\ touches_fs (run e) = false
  /\ final_fs (run e) = files e
  /\ stderr (run e) = []
  /\ exit_code (run e) = 0%Z.
Proof.
  intros Hargv Ha.
  assert (first_arg e <> Some "--save") as Hne.
  { unfold first_arg. rewrite Hargv. cbn. congruence. }
  assert (forall av0, (length av0 <= 1)%nat -> run e = run (with_argv e av0))
    as Hsame.
  { intros av0 Hlen. rewrite (run_without_save e Hne).
    rewrite run_without_save; [reflexivity|].
    unfold first_arg. cbn [with_argv argv].
    destruct av0 as [|x [|y l]]; cbn in *; try discriminate. lia. }
  split; [apply Hsame; cbn; lia|]. split; [exact Hsame|].
  rewrite stdout_run, (run_without_save e Hne). repeat split.
Qed.

Lemma other_first_arg_behaves_as_none_witness :
  run Sample.save_second = run (with_argv Sample.save_second ["gen_secret.py"])
  /\ (forall av0, (length av0 <= 1)%nat ->
      run Sample.save_second = run (with_argv Sample.save_second av0))
  /\ stdout (run Sample.save_second) = secret_of Sample.save_second +:+ nl
  /\ touches_fs (run Sample.save_second) = false
  /\ final_fs (run Sample.save_second) = files Sample.save_second
  /\ stderr (run Sample.save_second) = []
  /\ exit_code (run Sample.save_second) = 0%Z.
Proof.
  apply (other_first_arg_behaves_as_none
           Sample.save_second "gen_secret.py" "foo" ["--save"]).
  - reflexivity.
  - discriminate.
Defined.

(** ** Failure of the [--save] path *)

(** C5. When [.tracker_secret] cannot be opened or written on the [--save]
    path, the exit status is 1, standard error shows the interpreter's
    report of that very [OSError] and nothing else, the file was opened
    once and nothing else was tried, and the secret line is on standard
    output all the same: it is the first effect of the run, ahead of every
    file operation. *)
Theorem save_failure_is_fatal (e : Env) :
  first_arg e = Some "--save" ->
  save_io_ok e = false ->
  exists err rest,
    save_io_error e = Some err
    /\ exit_code (run e) = 1%Z
    /\ exit_code (run e) <> 0%Z
    /\ stderr (run e) = [Report (OSErr err)]
    /\ stdout (run e) = secret_of e +:+ nl
    /\ trace (run e) = EvStdout (secret_of e +:+ nl) :: rest
    /\ stdout_of rest = EmptyString
    /\ filter (fun ev => is_open_event ev = true) rest
       = [EvOpen tracker_file (open_fault e tracker_file)]
    /\ (forall ev, In ev rest -> is_file_event ev = true ->
        ev = EvOpen tracker_file (open_fault e tracker_file)
        \/ ev = EvWrite tracker_file (secret_of e) (Some err)
        \/ ev = EvClose tracker_file).
Proof.
  intros Hsave Hfail.
  exists (default Sample.eacces (save_io_error e)).
  split_run_cases (run_cases e); try congruence;
    rewrite stdout_run, Hrun, Herr, ?Hopen;
    cbn [default trace exit_code];
    eexists; (split; [reflexivity|]); repeat (split; [done|]).
  - intros ev Hin Hfile. cbn in Hin.
    destruct Hin as [<-|[<-|[]]]; [now left|discriminate].
  - intros ev Hin Hfile. cbn in Hin.
    destruct Hin as [<-|[<-|[<-|[<-|[]]]]]; auto; discriminate.
Qed.

Lemma save_failure_is_fatal_witness :
  exists err rest,
    save_io_error Sample.read_only = Some err
    /\ exit_code (run Sample.read_only) = 1%Z
    /\ exit_code (run Sample.read_only) <> 0%Z
    /\ stderr (run Sample.read_only) = [Report (OSErr err)]
    /\ stdout (run Sample.read_only) = secret_of Sample.read_only +:+ nl
    /\ trace (run Sample.read_only)
       = EvStdout (secret_of Sample.read_only +:+ nl) :: rest
    /\ stdout_of rest = EmptyString
    /\ filter (fun ev => is_open_event ev = true) rest
       = [EvOpen tracker_file (open_fault Sample.read_only tracker_file)]
    /\ (forall ev, In ev rest -> is_file_event ev = true ->
        ev = EvOpen tracker_file (open_fault Sample.read_only tracker_file)
        \/ ev = EvWrite tracker_file (secret_of Sample.read_only) (Some err)
        \/ ev = EvClose tracker_file).
Proof. apply (save_failure_is_fatal Sample.read_only); reflexivity. Defined.

Example disk_full_run :
  trace (run Sample.disk_full)
  = [EvStdout (secret_line Sample.disk_full);
     EvOpen tracker_file None;
     EvWrite tracker_file (secret_of Sample.disk_full) (Some Sample.enospc);
     EvClose tracker_file;
     EvTraceback (OSErr Sample.enospc)]
  /\ exit_code (run Sample.disk_full) = 1%Z
  /\ final_fs (run Sample.disk_full) !! tracker_file = Some "031".
Proof. repeat split. Qed.

(** C10. The notice on standard error comes only after the write went
    through: when opening or writing [.tracker_secret] fails, the script
    prints nothing on standard error, and whenever a text of the script is
    on standard error, the file system accepted the write, the file holds
    the secret, and the write precedes the notice in the run. *)
Theorem notice_only_after_successful_write (e : Env) :
  (save_io_ok e = false -> forall s, ~ In (Text s) (stderr (run e)))
  /\ (forall s, In (Text s) (stderr (run e)) ->
      s = saved_notice +:+ nl
      /\ first_arg e = Some "--save"
      /\ save_io_ok e = true
      /\ final_fs (run e) !! tracker_file = Some (secret_of e)
      /\ trace (run e) = [EvStdout (secret_of e +:+ nl);
                          EvOpen tracker_file None;
                          EvWrite tracker_file (secret_of e) None;
                          EvClose tracker_file;
                          EvStderr s]).
Proof.
  split.
  - intros Hfail s.
    split_run_cases (run_cases e); try congruence; rewrite Hrun; cbn; intros H;
      repeat (destruct H as [H|H]; [discriminate|]); exact H.
  - intros s.
    split_run_cases (run_cases e); rewrite Hrun; cbn; intros H;
      try (repeat (destruct H as [H|H]; [discriminate|]); contradiction).
    destruct H as [[= <-]|[]]. rewrite lookup_insert_eq.
    repeat split; assumption.
Qed.

(** ** The secret *)

(** C7. The secret is [bytes.hex()] of the 32 bytes [os.urandom] hands
    out: 64 characters, all in [0-9a-f].  The encoding maps each byte to
    its two nibble digits and concatenates them with nothing in between,
    so it doubles the length and is injective. *)
Theorem secret_is_hex_of_32_bytes (e : Env) :
  (forall w, token_bytes 32 e w = (Ok (map (urandom e) (seq 0 32)), w))
  /\ (forall w, token_hex 32 e w = (Ok (secret_of e), w))
  /\ stdout (run e) = Hex.hex (entropy e) +:+ nl
  /\ length (entropy e) = 32%nat
  /\ String.length (secret_of e) = 64%nat
  /\ forallb Hex.is_lower_hex (list_ascii_of_string (secret_of e)) = true
  /\ (forall b : byte,
      Hex.hex [b]
      = String (Hex.digit (Hex.hi b)) (String (Hex.digit (Hex.lo b)) ""))
  /\ (forall xs ys, Hex.hex (xs ++ ys) = Hex.hex xs +:+ Hex.hex ys)
  /\ (forall bs, String.length (Hex.hex bs) = (2 * length bs)%nat)
  /\ (forall bs, forallb Hex.is_lower_hex
                   (list_ascii_of_string (Hex.hex bs)) = true)
  /\ (forall xs ys, Hex.hex xs = Hex.hex ys -> xs = ys).
Proof.
  repeat apply conj.
  - reflexivity.
  - reflexivity.
  - apply stdout_run.
  - apply entropy_length.
  - unfold secret_of. now rewrite hex_length, entropy_length.
  - apply hex_all_lower_hex.
  - reflexivity.
  - apply hex_app.
  - apply hex_length.
  - apply hex_all_lower_hex.
  - apply hex_inj.
Qed.

(** ** Reading [sys.argv] *)

(** Without the guard the index would fault. *)
Example unguarded_index_faults (e : Env) (w : World) :
  getitem [] 1 e w = (Raise IndexError, w)
  /\ getitem ["gen_secret.py"] 1 e w = (Raise IndexError, w).
Proof. split; reflexivity. Qed.

(** C9. [sys.argv[1]] is guarded by the length check: when the check
    fails the right operand of [and] is not evaluated at all, whatever it
    is; when it succeeds the element is there.  Hence the condition has a
    value for every argument vector, the empty one included, and no run
    ends in an [IndexError]. *)
Theorem argv_index_is_guarded (e : Env) (w : World) :
  (forall right_operand : M bool,
     (length (argv e) <= 1)%nat ->
     and_then (av <- sys_argv ;; ret (1 <? length av)%nat) right_operand e w
     = (Ok false, w))
  /\ ((1 < length (argv e))%nat ->
      exists a1, argv e !! 1%nat = Some a1
                 /\ getitem (argv e) 1 e w = (Ok a1, w))
  /\ save_requested e w = (Ok (bool_decide (first_arg e = Some "--save")), w)
  /\ fst (main e w) <> Raise IndexError
  /\ ~ In (EvTraceback IndexError) (trace (run e)).
Proof.
  repeat apply conj.
  - intros right_operand Hlen.
    cbv [and_then bind sys_argv ask ret].
    destruct (Nat.ltb_spec 1 (length (argv e))) as [Hlt|_]; [lia|reflexivity].
  - intros Hlen. unfold getitem.
    destruct (argv e) as [|p [|a1 rest]]; cbn in Hlen; try lia.
    exists a1. split; reflexivity.
  - apply save_requested_eval.
  - rewrite main_eval. cbn zeta.
    destruct (bool_decide _); [|discriminate].
    rewrite save_block_eval.
    destruct (open_fault e tracker_file) as [err|]; [discriminate|].
    destruct (write_fault e tracker_file) as [[k err]|]; discriminate.
  - split_run_cases (run_cases e); rewrite Hrun; cbn; intros H;
      repeat (destruct H as [H|H]; [discriminate|]); exact H.
Qed.

(** ** Further properties of the script *)

Lemma substring_prefix (k : nat) (s : string) :
  String.prefix (String.substring 0 k s) s = true.
Proof.
  revert s. induction k as [|k IH]; intros [|c s]; cbn; try reflexivity.
  destruct (ascii_dec c c) as [_|Hne]; [apply IH|congruence].
Qed.

Lemma substring_length (k : nat) (s : string) :
  String.length (String.substring 0 k s) = Nat.min k (String.length s).
Proof.
  revert s. induction k as [|k IH]; intros [|c s]; cbn; try reflexivity.
  now rewrite IH.
Qed.

Lemma append_inj_same_length (s1 s2 t : string) :
  String.length s1 = String.length s2 -> s1 +:+ t = s2 +:+ t -> s1 = s2.
Proof.
  revert s2. induction s1 as [|c s1 IH]; intros [|d s2] Hlen Heq;
    try discriminate Hlen; [reflexivity|].
  unfold String.append in Heq; fold String.append in Heq.
  injection Heq as -> Heq. injection Hlen as Hlen.
  f_equal. now apply IH.
Qed.

Lemma secret_length (e : Env) : String.length (secret_of e) = 64%nat.
Proof. unfold secret_of. now rewrite hex_length, entropy_length. Qed.

Lemma stdout_eq_iff_entropy_eq (e1 e2 : Env) :
  stdout (run e1) = stdout (run e2) <-> entropy e1 = entropy e2.
Proof.
  rewrite !stdout_run. unfold secret_line. split.
  - intros Heq. apply hex_inj. fold (secret_of e1) (secret_of e2).
    apply (append_inj_same_length _ _ nl); [|exact Heq].
    now rewrite !secret_length.
  - intros Heq. unfold secret_of. now rewrite Heq.
Qed.


(** X2. What a failed [--save] does to an older secret file.  A refused
    [open] leaves the file system exactly as it was, so the old secret
    survives.  Once [open] went through the old content is gone even if
    the write then fails: the file holds the characters of the new secret
    that got through, a prefix of it, and nothing of what was there. *)
Theorem failed_save_and_the_old_file (e : Env) (old : string) :
  first_arg e = Some "--save" ->
  files e !! tracker_file = Some old ->
  (forall err, open_fault e tracker_file = Some err ->
     final_fs (run e) = files e
     /\ final_fs (run e) !! tracker_file = Some old)
  /\ (forall k err,
        open_fault e tracker_file = None ->
        write_fault e tracker_file = Some (k, err) ->
        exists kept,
          final_fs (run e) !! tracker_file = Some kept
          /\ kept = String.substring 0 k (secret_of e)
          /\ String.prefix kept (secret_of e) = true
          /\ String.length kept = Nat.min k 64).
Proof.
  intros Hsave Hold. split.
  - intros err Ho. rewrite (run_open_fails e err Hsave Ho). cbn [final_fs].
    split; [reflexivity|assumption].
  - intros k err Ho Hw. rewrite (run_write_fails e k err Hsave Ho Hw).
    cbn [final_fs]. rewrite lookup_insert_eq. eexists.
    split; [reflexivity|]. split; [reflexivity|].
    split; [apply substring_prefix|].
    now rewrite substring_length, secret_length.
Qed.

Lemma failed_save_and_the_old_file_witness :
  final_fs (run Rerun.disk_full_over_stale) !! tracker_file = Some "031"
  /\ (forall k err,
        open_fault Rerun.disk_full_over_stale tracker_file = None ->
        write_fault Rerun.disk_full_over_stale tracker_file = Some (k, err) ->
        exists kept,
          final_fs (run Rerun.disk_full_over_stale) !! tracker_file
          = Some kept
          /\ kept = String.substring 0 k (secret_of Rerun.disk_full_over_stale)
          /\ String.prefix kept (secret_of Rerun.disk_full_over_stale) = true
          /\ String.length kept = Nat.min k 64).
Proof.
  split; [reflexivity|].
  apply (failed_save_and_the_old_file Rerun.disk_full_over_stale "stale");
    reflexivity.
Defined.


(** X4. Of the argument vector only one bit is used: whether the element
    at index 1 is [--save].  The program name and every argument after the
    first are never looked at, so two argument vectors that agree on that
    bit give the same run in the same surroundings. *)
Theorem only_the_first_argument_is_read (e : Env) (av : list string) :
  (av !! 1%nat = Some "--save" <-> first_arg e = Some "--save") ->
  run (with_argv e av) = run e.
Proof.
  intros Hbit.
  assert (first_arg (with_argv e av) = av !! 1%nat) as Hav by reflexivity.
  split_run_cases (run_cases e); rewrite Hrun.
  - rewrite run_without_save; [reflexivity|]. rewrite Hav. tauto.
  - apply save_io_ok_true in Hio as [Ho Hw].
    rewrite run_save_ok; try assumption; [reflexivity|]. rewrite Hav. tauto.
  - rewrite (run_open_fails _ err); try assumption; [reflexivity|].
    rewrite Hav. tauto.
  - rewrite (run_write_fails _ k err); try assumption; [reflexivity|].
    rewrite Hav. tauto.
Qed.

Lemma only_the_first_argument_is_read_witness :
  run (with_argv Sample.save ["other.py"; "--save"; "--quiet"; "--save"])
  = run Sample.save.
Proof.
  apply (only_the_first_argument_is_read Sample.save);
    split; reflexivity.
Defined.

(** X5. The printed line determines the random bytes and is determined by
    them: two invocations print the same text exactly when [os.urandom]
    handed both the same first 32 bytes.  Arguments, directory contents
    and file-system failures have no part in it, and bytes of the source
    past the 32nd are not consumed. *)
Theorem same_line_iff_same_random_bytes (e1 e2 : Env) :
  stdout (run e1) = stdout (run e2)
  <-> (forall i, (i < 32)%nat -> urandom e1 i = urandom e2 i).
Proof.
  rewrite stdout_eq_iff_entropy_eq. unfold entropy.
  rewrite List.map_ext_in_iff. split.
  - intros H i Hi. apply H. apply in_seq. lia.
  - intros H i Hi. apply H. apply in_seq in Hi. lia.
Qed.

(** X6. Every run keeps the discipline of the [with] block: the file is
    opened at most once and only when none is open, it is written only
    while open, a file that was opened is closed again even when the write
    fails, and nothing is printed on standard error, by the script or by
    the interpreter, while the file is open.  The secret is handed to
    [write] at most once. *)
Theorem file_is_closed_before_any_report (e : Env) :
  well_bracketed None (trace (run e)) = true
  /\ (length (List.filter is_open_event (trace (run e))) <= 1)%nat
  /\ (length (List.filter is_write_event (trace (run e))) <= 1)%nat.
Proof.
  split_run_cases (run_cases e); rewrite Hrun; cbn [trace];
    repeat apply conj; try reflexivity; cbn; lia.
Qed.



(** X8. Printing after saving: a later run without [--save] in the
    directory a successful [--save] run left prints a secret of its own
    and leaves the file alone, so the file still holds the secret of the
    earlier run; what is printed is what is stored only if [os.urandom]
    handed out the same 32 bytes both times. *)
Theorem later_plain_run_keeps_stored_secret (e1 e2 : Env) :
  first_arg e1 = Some "--save" -> save_io_ok e1 = true ->
  first_arg e2 <> Some "--save" ->
  files e2 = final_fs (run e1) ->
  final_fs (run e2) = final_fs (run e1)
  /\ final_fs (run e2) !! tracker_file = Some (secret_of e1)
  /\ stdout (run e2) = secret_of e2 +:+ nl
  /\ (final_fs (run e2) !! tracker_file = Some (secret_of e2)
      <-> entropy e1 = entropy e2).
Proof.
  intros Hs1 Hok1 Hs2 Hdir.
  apply save_io_ok_true in Hok1 as [Ho1 Hw1].
  rewrite stdout_run, (run_without_save e2 Hs2). cbn [final_fs].
  rewrite Hdir, (run_save_ok e1 Hs1 Ho1 Hw1). cbn [final_fs].
  rewrite lookup_insert_eq.
  split; [reflexivity|]. split; [reflexivity|]. split; [reflexivity|]. split.
  - intros Heq. apply (inj Some) in Heq. apply hex_inj. exact Heq.
  - intros Heq. unfold secret_of. now rewrite Heq.
Qed.

Lemma later_plain_run_keeps_stored_secret_witness :
  secret_of Rerun.print_only <> secret_of Sample.save
  /\ final_fs (run Rerun.print_only) = final_fs (run Sample.save)
  /\ final_fs (run Rerun.print_only) !! tracker_file
     = Some (secret_of Sample.save)
  /\ stdout (run Rerun.print_only) = secret_of Rerun.print_only +:+ nl
  /\ (final_fs (run Rerun.print_only) !! tracker_file
      = Some (secret_of Rerun.print_only)
      <-> entropy Sample.save = entropy Rerun.print_only).
Proof.
  split; [discriminate|].
  apply (later_plain_run_keeps_stored_secret Sample.save Rerun.print_only);
    [reflexivity|reflexivity|discriminate|reflexivity].
Defined.
